(** * Realtime scoring web service of the Spark tutorial

    Shallow embedding of [samples/spark/tutorials/realtime/realtimewebservices.ipynb]:
    the training, evaluation and persistence cells, the two entry points of
    [score.py] ([init] and [run]) and the test cell that calls them.

    Python code is written in a small state-and-exception monad [Py]: the
    state holds the persisted artifacts and the module-level name [pipeline]
    of [score.py]; a computation either returns a value or raises.

    The notebook delegates to pyspark.  What it relies on from that library
    is collected in [Module Spark] as an executable reference model of the
    calls the notebook makes; the learner, the metric arithmetic and the
    rendering of a float by [str] stay opaque (class [Opaque]). *)

From Stdlib Require Import ZArith String Ascii List.
From Stdlib Require Import Floats.PrimFloat Numbers.Cyclic.Int63.Uint63.
From stdpp Require Import gmap strings list pretty.

Set Warnings "-inexact-float".
Local Open Scope string_scope.

(** ** Python values and exceptions *)

(** Cell values of a table and the values [str] is applied to. *)
Inductive value : Type :=
  | VNull
  | VInt (z : Z)
  | VDouble (x : float)
  | VString (s : string)
  | VVector (xs : list float).

(** The exception classes that occur, with their place in Python's
    hierarchy: everything derives from [BaseException]; [KeyboardInterrupt]
    and [SystemExit] do not derive from [Exception]. *)
Inductive ExcClass : Type :=
  | NameError
  | ValueError
  | IOError
  | IllegalArgumentException
  | Py4JJavaError
  | KeyboardInterrupt
  | SystemExit.

Definition derives_from_Exception (c : ExcClass) : bool :=
  match c with
  | KeyboardInterrupt | SystemExit => false
  | _ => true
  end.

Record PyException : Type := mkExc { exc_class : ExcClass; exc_message : string }.

(** [str(e)] *)
Definition str_exc (e : PyException) : string := exc_message e.

(** [isinstance(e, Exception)] *)
Definition is_Exception (e : PyException) : bool :=
  derives_from_Exception (exc_class e).

(** ** Outcomes and the [Py] monad *)

Inductive outcome (A : Type) : Type :=
  | Return (a : A)
  | Raise (e : PyException).
Arguments Return {A} a.
Arguments Raise {A} e.

#[export] Instance outcome_ret : MRet outcome := @Return.
#[export] Instance outcome_bind : MBind outcome := fun A B f m =>
  match m with
  | Return a => f a
  | Raise e => Raise e
  end.

(** ** Strings *)

Definition comma : ascii := ","%char.
Definition dquote : string := String (ascii_of_nat 34) "".

(** [s[:-1]]: all but the last character; the empty string stays empty. *)
Fixpoint drop_last (s : string) : string :=
  match s with
  | "" => ""
  | String c "" => ""
  | String c s' => String c (drop_last s')
  end.

(** [s.split(",")] for a one-character separator. *)
Fixpoint split_on (sep : ascii) (s : string) : list string :=
  match s with
  | "" => [""]
  | String c s' =>
      if Ascii.eqb c sep then "" :: split_on sep s'
      else match split_on sep s' with
           | [] => [String c ""]
           | t :: ts => String c t :: ts
           end
  end.

Fixpoint contains_char (c : ascii) (s : string) : bool :=
  match s with
  | "" => false
  | String d s' => Ascii.eqb d c || contains_char c s'
  end.

(** [s.endswith(",")] *)
Fixpoint ends_with (c : ascii) (s : string) : bool :=
  match s with
  | "" => false
  | String d "" => Ascii.eqb d c
  | String _ s' => ends_with c s'
  end.

(** What the loop of [run] leaves in [response] for the given tokens. *)
Fixpoint terminated (toks : list string) : string :=
  match toks with
  | [] => ""
  | t :: ts => (t +:+ ",") +:+ terminated ts
  end.

(** ** Opaque collaborators

    The parts of Python and pyspark whose results are floats computed by
    code outside the notebook. *)
Class Opaque : Type := {
  (** [str(x)] for a Python float *)
  str_float : float -> string;
  (** the gradient-boosted-tree learner: training pairs (features, label)
      to the fitted regression function *)
  gbt_fit : list (list float * float) -> list float -> float;
  (** the coefficient of determination of (prediction, label) pairs *)
  r2_metric : list (float * float) -> float;
  (** the other metrics of the evaluator, by name *)
  other_metric : string -> list (float * float) -> float
}.

(** What is used of [str] on floats: the rendering is never empty and
    has no comma in it. *)
Class OpaqueLaws (O : Opaque) : Prop := {
  str_float_nonempty : forall x, str_float x <> "";
  str_float_no_comma : forall x, contains_char comma (str_float x) = false
}.

(** ** The pyspark calls of the notebook *)

Module Spark.

Inductive DataType : Type :=
  | DoubleType
  | IntegerType
  | LongType
  | StringType
  | VectorType.

Definition is_numeric (t : DataType) : bool :=
  match t with
  | DoubleType | IntegerType | LongType => true
  | _ => false
  end.

(** A row carries its field names, as [pyspark.sql.Row] does. *)
Definition Row : Type := list (string * value).
Definition Schema : Type := list (string * DataType).

(** The result of a job on the cluster: it is done, or it failed on the
    JVM side with a message. *)
Inductive job (A : Type) : Type :=
  | Done (a : A)
  | Failed (msg : string).
Arguments Done {A} a.
Arguments Failed {A} msg.

#[export] Instance job_ret : MRet job := @Done.
#[export] Instance job_bind : MBind job := fun A B f m =>
  match m with
  | Done a => f a
  | Failed msg => Failed msg
  end.

(** An action runs the job; py4j raises a failed job in Python as a
    [Py4JJavaError]. *)
Definition run_job {A : Type} (action : string) (j : job A) : outcome A :=
  match j with
  | Done a => Return a
  | Failed msg =>
      Raise (mkExc Py4JJavaError ("An error occurred while calling " +:+ action +:+ ": " +:+ msg))
  end.

(** A table is a schema and a deferred computation of its rows: the
    schema of a derived table is checked when it is built, its rows are
    computed (and may fail) when an action runs. *)
Record DataFrame : Type := mkDataFrame {
  schema : Schema;
  plan : job (list Row)
}.

Definition columns (df : DataFrame) : list string := map fst (schema df).

(** First binding of a name in an ordered list of fields. *)
Fixpoint field {A : Type} (name : string) (fs : list (string * A)) : option A :=
  match fs with
  | [] => None
  | (n, a) :: fs' => if String.eqb n name then Some a else field name fs'
  end.

Definition has_column (name : string) (sch : Schema) : bool :=
  match field name sch with Some _ => true | None => false end.

(** Modelled from the spec: [row[name]] of pyspark, whose code is not in the
    repository.  [Row.__getitem__] with a string raises [ValueError(name)]
    for a name that is not a field. *)
Definition Row_getitem (row : Row) (name : string) : outcome value :=
  match field name row with
  | Some v => Return v
  | None => Raise (mkExc ValueError name)
  end.

(** Modelled from the spec: [df.collect()] of pyspark, whose code is not in
    the repository; the handler "collects predictions", one per input row,
    in row order. *)
Definition collect (df : DataFrame) : outcome (list Row) :=
  run_job "collectToPython" (plan df).

(** Modelled from the spec: [df.drop(name)] of pyspark, the "column-drop
    operation used to build sample inputs". *)
Definition drop_column (name : string) (df : DataFrame) : DataFrame :=
  {| schema := filter (fun f => negb (String.eqb (fst f) name)) (schema df);
     plan := rows ← plan df;
             mret (map (filter (fun f : string * value => negb (String.eqb (fst f) name))) rows) |}.

(** The column type inferred for a Python value. *)
Definition infer_type (v : value) : DataType :=
  match v with
  | VInt _ => LongType
  | VDouble _ => DoubleType
  | VVector _ => VectorType
  | _ => StringType
  end.

(** Modelled from the spec: [spark.createDataFrame(data, names)] of pyspark,
    whose code is not in the repository; the types come from the first row,
    every row is paired with the names. *)
Definition createDataFrame (data : list (list value)) (names : list string) : DataFrame :=
  {| schema := combine names (map infer_type (hd [] data));
     plan := Done (map (combine names) data) |}.

(** An integer cell as a double. *)
Definition Z_to_double (z : Z) : float :=
  if (z <? 0)%Z then PrimFloat.opp (PrimFloat.of_uint63 (Uint63.of_Z (- z)))
  else PrimFloat.of_uint63 (Uint63.of_Z z).

(** A numeric cell as a double; a null (or any other cell) fails the job. *)
Definition as_double (name : string) (v : option value) : job float :=
  match v with
  | Some (VDouble x) => Done x
  | Some (VInt z) => Done (Z_to_double z)
  | _ => Failed ("column " +:+ name +:+ ": Values to assemble cannot be null.")
  end.

(** The feature vector of a row over the given columns, in their order. *)
Definition assemble (cols : list string) (row : Row) : job (list float) :=
  mapM (fun c => as_double c (field c row)) cols.

(** A fitted pipeline: the resolved formula (label column and feature
    columns) and the fitted regression function. *)
Record PipelineModel : Type := mkPipelineModel {
  label_col : string;
  feature_cols : list string;
  regressor : list float -> float
}.

Definition illegal_argument (msg : string) : PyException :=
  mkExc IllegalArgumentException msg.

(** The schema check of [PipelineModel.transform]: every feature column
    is there and numeric, and the output columns are not taken. *)
Definition check_feature (sch : Schema) (c : string) : option PyException :=
  match field c sch with
  | None => Some (illegal_argument ("Field " +:+ dquote +:+ c +:+ dquote +:+ " does not exist."))
  | Some t =>
      if is_numeric t then None
      else Some (illegal_argument ("Data type of column " +:+ c +:+ " is not supported."))
  end.

Fixpoint first_error (checks : list (option PyException)) : option PyException :=
  match checks with
  | [] => None
  | Some e :: _ => Some e
  | None :: rest => first_error rest
  end.

Definition check_output (sch : Schema) (c : string) : option PyException :=
  if has_column c sch
  then Some (illegal_argument ("requirement failed: Column " +:+ c +:+ " already exists."))
  else None.

Definition transform_check (p : PipelineModel) (sch : Schema) : option PyException :=
  first_error (map (check_feature sch) (feature_cols p)
               ++ [check_output sch "features"; check_output sch "prediction"])%list.

(** The label column is added when the input has the formula's label. *)
Definition label_field (p : PipelineModel) (row : Row) : job Row :=
  match field (label_col p) row with
  | None => Done []
  | Some v => l ← as_double (label_col p) (Some v); mret [("label", VDouble l)]
  end.

(** One input row with its features, label (if any) and prediction. *)
Definition score_row (p : PipelineModel) (row : Row) : job Row :=
  fs ← assemble (feature_cols p) row;
  lbl ← label_field p row;
  mret (row ++ [("features", VVector fs)] ++ lbl
             ++ [("prediction", VDouble (regressor p fs))])%list.

Definition transform_schema (p : PipelineModel) (sch : Schema) : Schema :=
  (sch ++ [("features", VectorType)]
       ++ (if has_column (label_col p) sch then [("label", DoubleType)] else [])
       ++ [("prediction", DoubleType)])%list.

(** Modelled from the spec: [pipeline.transform(df)] of pyspark, whose code
    is not in the repository.  The table must have the columns the pipeline
    was trained on ("a mismatch is an external-library-reported failure");
    the result has one scored row per input row, in row order. *)
Definition transform (p : PipelineModel) (df : DataFrame) : outcome DataFrame :=
  match transform_check p (schema df) with
  | Some e => Raise e
  | None =>
      Return {| schema := transform_schema p (schema df);
                plan := rows ← plan df; mapM (score_row p) rows |}
  end.

Section Learning.
Context {O : Opaque}.

(** Modelled from the spec:
    [Pipeline(stages=[RFormula(formula=label ~ .), GBTRegressor()]).fit(df)] of
    pyspark, whose code is not in the repository: "a declarative formula
    mapping target-vs-features, followed by a gradient-boosted regression
    model" fitted "against the full table".  The dot of the formula is every
    column but the label; the columns are numeric, as those of the housing
    table are. *)
Definition fit (label : string) (df : DataFrame) : outcome PipelineModel :=
  let feats := filter (fun c => negb (String.eqb c label)) (columns df) in
  match first_error (map (check_feature (schema df)) (label :: feats)) with
  | Some e => Raise e
  | None =>
      training ← run_job "fit" (rows ← plan df;
                                mapM (fun row =>
                                        fs ← assemble feats row;
                                        l ← as_double label (field label row);
                                        mret (fs, l)) rows);
      mret {| label_col := label; feature_cols := feats; regressor := gbt_fit training |}
  end.

Inductive Metric : Type := rmse | mse | r2 | mae.

(** [RegressionEvaluator(metricName=m)]; the default metric is [rmse]. *)
Record RegressionEvaluator : Type := mkEvaluator {
  metricName : Metric;
  labelCol : string;
  predictionCol : string
}.

Definition metric_value (m : Metric) (pairs : list (float * float)) : float :=
  match m with
  | r2 => r2_metric pairs
  | rmse => other_metric "rmse" pairs
  | mse => other_metric "mse" pairs
  | mae => other_metric "mae" pairs
  end.

(** Modelled from the spec: [evaluator.evaluate(scores)] of pyspark, whose
    code is not in the repository: the metric "comparing predictions to
    actual target values", over the (prediction, label) pairs of the rows of
    [scores]. *)
Definition evaluate (ev : RegressionEvaluator) (scores : DataFrame) : outcome float :=
  match first_error (map (check_feature (schema scores)) [predictionCol ev; labelCol ev]) with
  | Some e => Raise e
  | None =>
      pairs ← run_job "evaluate" (rows ← plan scores;
                                  mapM (fun row =>
                                          p ← as_double (predictionCol ev) (field (predictionCol ev) row);
                                          l ← as_double (labelCol ev) (field (labelCol ev) row);
                                          mret (p, l)) rows);
      mret (metric_value (metricName ev) pairs)
  end.

End Learning.

End Spark.

(** ** Process state and the [Py] monad *)

(** The state Python code runs against: the persisted pipelines by
    directory name, and the module-level name [pipeline] of [score.py]
    ([None] while the name is unbound). *)
Record World : Type := mkWorld {
  files : gmap string Spark.PipelineModel;
  score_pipeline : option Spark.PipelineModel
}.

Definition Py (A : Type) : Type := World -> outcome A * World.

#[export] Instance Py_ret : MRet Py := fun A a w => (Return a, w).
#[export] Instance Py_bind : MBind Py := fun A B f m w =>
  match m w with
  | (Return a, w') => f a w'
  | (Raise e, w') => (Raise e, w')
  end.

(** A library call that touches no state. *)
Definition lift {A : Type} (r : outcome A) : Py A := fun w => (r, w).

(** [try: body except Exception as e: handler(e)]: an exception of a
    class outside [Exception] passes through. *)
Definition try_except_Exception {A : Type} (body : Py A) (handler : PyException -> Py A) : Py A :=
  fun w =>
    match body w with
    | (Return a, w') => (Return a, w')
    | (Raise e, w') => if is_Exception e then handler e w' else (Raise e, w')
    end.

(** [for x in xs: body], threading the variables the body assigns. *)
Fixpoint for_each {A S : Type} (xs : list A) (s : S) (body : S -> A -> Py S) : Py S :=
  match xs with
  | [] => mret s
  | x :: xs' => s' ← body s x; for_each xs' s' body
  end.

(** Reading the global name [pipeline] inside [score.py]. *)
Definition read_pipeline : Py Spark.PipelineModel := fun w =>
  match score_pipeline w with
  | Some p => (Return p, w)
  | None => (Raise (mkExc NameError "name 'pipeline' is not defined"), w)
  end.

(** [global pipeline; pipeline = p] *)
Definition assign_pipeline (p : Spark.PipelineModel) : Py unit := fun w =>
  (Return tt, {| files := files w; score_pipeline := Some p |}).

(** ** Persistence: [MLWriter] and [PipelineModel.load] *)

Record MLWriter : Type := mkWriter {
  instance : Spark.PipelineModel;
  shouldOverwrite : bool
}.

(** [p.write()] *)
Definition write (p : Spark.PipelineModel) : MLWriter :=
  {| instance := p; shouldOverwrite := false |}.

(** [w.overwrite()] *)
Definition overwrite (w : MLWriter) : MLWriter :=
  {| instance := instance w; shouldOverwrite := true |}.

(** Modelled from the spec: [w.save(path)] of pyspark, whose code is not in
    the repository: "serialize the fitted pipeline to a named directory,
    overwriting any existing contents"; without [overwrite()] an existing
    path is refused. *)
Definition save (wr : MLWriter) (path : string) : Py unit := fun w =>
  match files w !! path with
  | Some _ =>
      if shouldOverwrite wr
      then (Return tt, {| files := <[path := instance wr]> (files w);
                          score_pipeline := score_pipeline w |})
      else (Raise (mkExc IOError ("Path " +:+ path +:+ " already exists.")), w)
  | None =>
      (Return tt, {| files := <[path := instance wr]> (files w);
                     score_pipeline := score_pipeline w |})
  end.

(** Modelled from the spec: [PipelineModel.load(path)] of pyspark, whose code
    is not in the repository: it "loads the persisted pipeline". *)
Definition PipelineModel_load (path : string) : Py Spark.PipelineModel := fun w =>
  match files w !! path with
  | Some p => (Return p, w)
  | None => (Raise (mkExc Py4JJavaError ("Input path does not exist: " +:+ path)), w)
  end.

(** ** The notebook *)

Section Notebook.
Context {O : Opaque}.

(** [str(v)] *)
Definition py_str (v : value) : string :=
  match v with
  | VNull => "None"
  | VInt z => pretty z
  | VDouble x => str_float x
  | VString s => s
  | VVector xs => "[" +:+ String.concat "," (map str_float xs) +:+ "]"
  end.

(** Training cell:
    [pipeline = Pipeline(stages=[RFormula(formula="MEDV~."), GBTRegressor()]).fit(df2)] *)
Definition train (df2 : Spark.DataFrame) : outcome Spark.PipelineModel :=
  Spark.fit "MEDV" df2.

(** Evaluation cell:
    [scores = pipeline.transform(df2)]
    [RegressionEvaluator(metricName="r2").evaluate(scores)] *)
Definition evaluate_scores (pipeline : Spark.PipelineModel) (df2 : Spark.DataFrame) : outcome float :=
  scores ← Spark.transform pipeline df2;
  Spark.evaluate {| Spark.metricName := Spark.r2;
                    Spark.labelCol := "label";
                    Spark.predictionCol := "prediction" |} scores.

(** The training stage: both cells on the table [df2]. *)
Definition training_stage (df2 : Spark.DataFrame) : outcome (Spark.PipelineModel * float) :=
  pipeline ← train df2;
  score ← evaluate_scores pipeline df2;
  mret (pipeline, score).

(** Persistence cell: [pipeline.write().overwrite().save("housing.model")] *)
Definition save_model (pipeline : Spark.PipelineModel) : Py unit :=
  save (overwrite (write pipeline)) "housing.model".

(** [score.py]: [init] *)
Definition init : Py unit :=
  p ← PipelineModel_load "housing.model";
  assign_pipeline p.

(** The body of the loop of [run]:
    [response += str(pred['prediction']) + ","] *)
Definition append_prediction (response : string) (pred : Spark.Row) : Py string :=
  v ← lift (Spark.Row_getitem pred "prediction");
  mret (response +:+ (py_str v +:+ ",")).

(** [score.py]: [run] *)
Definition run (input_df : Spark.DataFrame) : Py string :=
  let response := "" in
  try_except_Exception
    (pipeline ← read_pipeline;
     score ← lift (Spark.transform pipeline input_df);
     predictions ← lift (Spark.collect score);
     response ← for_each predictions response append_prediction;
     mret (drop_last response))
    (fun e => mret (str_exc e)).

(** Test cell: [score.init()] then [score.run(df)] *)
Definition test_cell (df : Spark.DataFrame) : Py string :=
  _ ← init;
  run df.

(** A host that calls [run] on one request after the other. *)
Definition serve (requests : list Spark.DataFrame) : Py (list string) :=
  mapM run requests.

(** The cells in the order of the notebook: train and evaluate on [df2],
    persist the pipeline, then the test cell on [df]. *)
Definition notebook (df2 df : Spark.DataFrame) : Py (float * string) :=
  trained ← lift (training_stage df2);
  _ ← save_model (fst trained);
  response ← test_cell df;
  mret (snd trained, response).

End Notebook.

(** The sample of the test cell: three rows under thirteen names. *)
Module TestCell.

Definition input_data : list (list value) :=
  [ [VDouble 0.00632; VDouble 18.0; VDouble 2.31; VInt 0; VDouble 0.538; VDouble 6.575;
     VDouble 65.2; VDouble 4.09; VInt 1; VInt 296; VDouble 15.3; VDouble 4.98; VDouble 24.0];
    [VDouble 0.00632; VDouble 59.0; VDouble 2.31; VInt 0; VDouble 0.538; VDouble 6.575;
     VDouble 65.2; VDouble 4.09; VInt 1; VInt 296; VDouble 15.3; VDouble 4.98; VDouble 24.0];
    [VDouble 0.00332; VDouble 76.0; VDouble 2.31; VInt 0; VDouble 0.538; VDouble 6.575;
     VDouble 65.2; VDouble 4.09; VInt 1; VInt 296; VDouble 15.3; VDouble 4.98; VDouble 12.0] ].

Definition df : Spark.DataFrame :=
  Spark.createDataFrame input_data
    ["CRIM"; "ZN"; "INDUS"; "CHAS"; "NOX"; "RM"; "AGE"; "DIS"; "RAD"; "TAX"; "PTRATIO"; "B"; "LSTAT"].

End TestCell.

(** The columns of the housing table, as the recorded schema of
    [df2.drop("MEDV")] lists them, and the target column. *)
Definition housing_features : Spark.Schema :=
  [("CRIM", Spark.DoubleType); ("ZN", Spark.DoubleType); ("INDUS", Spark.DoubleType);
   ("CHAS", Spark.IntegerType); ("NOX", Spark.DoubleType); ("RM", Spark.DoubleType);
   ("AGE", Spark.DoubleType); ("DIS", Spark.DoubleType); ("RAD", Spark.IntegerType);
   ("TAX", Spark.IntegerType); ("PTRATIO", Spark.DoubleType); ("LSTAT", Spark.DoubleType)].

Definition housing_schema : Spark.Schema :=
  (housing_features ++ [("MEDV", Spark.DoubleType)])%list.

(** ** Valid input of a fitted pipeline *)

Module Valid.
Import Spark.

Definition numeric_cell (v : option value) : bool :=
  match v with
  | Some (VInt _) | Some (VDouble _) => true
  | _ => false
  end.

(** The double a numeric cell stands for. *)
Definition cell_double (v : option value) : float :=
  match v with
  | Some (VDouble x) => x
  | Some (VInt z) => Z_to_double z
  | _ => 0%float
  end.

(** The feature vector of a row and the prediction of a pipeline on it. *)
Definition features_of (cols : list string) (row : Row) : list float :=
  map (fun c => cell_double (field c row)) cols.

Definition predict (p : PipelineModel) (row : Row) : float :=
  regressor p (features_of (feature_cols p) row).

Definition numeric_column (sch : Schema) (c : string) : bool :=
  match field c sch with
  | Some t => is_numeric t
  | None => false
  end.

(** The table has every feature column of the pipeline, with a numeric
    type, and no column named like an output column. *)
Definition schema_ok (p : PipelineModel) (sch : Schema) : bool :=
  forallb (numeric_column sch) (feature_cols p)
  && negb (has_column "features" sch)
  && negb (has_column "prediction" sch).

(** A row has the fields of the schema, a number in every feature column
    and, if it has the label column, a number there. *)
Definition row_ok (p : PipelineModel) (sch : Schema) (row : Row) : bool :=
  bool_decide (map fst row = map fst sch)
  && forallb (fun c => numeric_cell (field c row)) (feature_cols p)
  && match field (label_col p) row with
     | Some v => numeric_cell (Some v)
     | None => true
     end.

(** A valid input of the pipeline: the rows are there and every one is
    well formed. *)
Definition valid_input (p : PipelineModel) (df : DataFrame) : bool :=
  schema_ok p (schema df)
  && match plan df with
     | Done rows => forallb (row_ok p (schema df)) rows
     | Failed _ => false
     end.

(** The rows of a table whose job is done. *)
Definition rows_of (df : DataFrame) : list Row :=
  match plan df with
  | Done rows => rows
  | Failed _ => []
  end.

Definition label_cells (p : PipelineModel) (row : Row) : Row :=
  match field (label_col p) row with
  | Some v => [("label", VDouble (cell_double (Some v)))]
  | None => []
  end.

(** A scored row: the input fields, then features, label and prediction. *)
Definition scored (p : PipelineModel) (row : Row) : Row :=
  (row ++ [("features", VVector (features_of (feature_cols p) row))]
       ++ label_cells p row
       ++ [("prediction", VDouble (predict p row))])%list.

End Valid.

(** ** Valid training table *)

Module Training.
Import Spark Valid.

(** The feature columns the formula [label ~ .] resolves to. *)
Definition formula_features (label : string) (df : DataFrame) : list string :=
  filter (fun c => negb (String.eqb c label)) (columns df).

(** A table the pipeline can be fitted on and evaluated with: the label
    and every other column are numeric, no column has the name of an output
    column, and every row has the fields of the schema with a number in
    each. *)
Definition trainable (label : string) (df : DataFrame) : bool :=
  numeric_column (schema df) label
  && forallb (numeric_column (schema df)) (formula_features label df)
  && negb (has_column "features" (schema df))
  && negb (has_column "label" (schema df))
  && negb (has_column "prediction" (schema df))
  && match plan df with
     | Done rows =>
         forallb (fun row =>
                    bool_decide (map fst row = map fst (schema df))
                    && forallb (fun c => numeric_cell (field c row))
                         (label :: formula_features label df)) rows
     | Failed _ => false
     end.

(** The actual target value of a row. *)
Definition target (label : string) (row : Row) : float :=
  cell_double (field label row).

(** The (features, label) pairs the learner is given. *)
Definition training_pairs (label : string) (df : DataFrame) : list (list float * float) :=
  map (fun row => (features_of (formula_features label df) row, target label row)) (rows_of df).

Section Fitted.
Context {O : Opaque}.

(** The pipeline fitted on a trainable table. *)
Definition fitted (label : string) (df : DataFrame) : PipelineModel :=
  {| label_col := label;
     feature_cols := formula_features label df;
     regressor := gbt_fit (training_pairs label df) |}.

End Fitted.

End Training.

(** ** A lightweight fake of the opaque collaborators

    [str] knows the three predictions the notebook printed; the learner
    returns a regressor that answers them by the [ZN] feature. *)
Module Fake.

Definition render (x : float) : string :=
  if PrimFloat.eqb x 18.687468518340438 then "18.687468518340438"
  else if PrimFloat.eqb x 19.21096852021207 then "19.21096852021207"
  else if PrimFloat.eqb x 24.48585095195574 then "24.48585095195574"
  else if PrimFloat.eqb x 0 then "0.0"
  else "nan".

Definition regressor (fs : list float) : float :=
  match fs with
  | _ :: zn :: _ =>
      if PrimFloat.eqb zn 18 then 18.687468518340438%float
      else if PrimFloat.eqb zn 59 then 19.21096852021207%float
      else if PrimFloat.eqb zn 76 then 24.48585095195574%float
      else 0%float
  | _ => 0%float
  end.

Definition learner (training : list (list float * float)) : list float -> float := regressor.

#[export] Instance opaque : Opaque := {|
  str_float := render;
  gbt_fit := learner;
  r2_metric := fun _ => 1%float;
  other_metric := fun _ _ => 0%float
|}.

(** A housing table of two rows. *)
Definition housing_rows : list Spark.Row :=
  [ [("CRIM", VDouble 0.00632); ("ZN", VDouble 18.0); ("INDUS", VDouble 2.31); ("CHAS", VInt 0);
     ("NOX", VDouble 0.538); ("RM", VDouble 6.575); ("AGE", VDouble 65.2); ("DIS", VDouble 4.09);
     ("RAD", VInt 1); ("TAX", VInt 296); ("PTRATIO", VDouble 15.3); ("LSTAT", VDouble 4.98);
     ("MEDV", VDouble 24.0)];
    [("CRIM", VDouble 0.02731); ("ZN", VDouble 0.0); ("INDUS", VDouble 7.07); ("CHAS", VInt 0);
     ("NOX", VDouble 0.469); ("RM", VDouble 6.421); ("AGE", VDouble 78.9); ("DIS", VDouble 4.9671);
     ("RAD", VInt 2); ("TAX", VInt 242); ("PTRATIO", VDouble 17.8); ("LSTAT", VDouble 9.14);
     ("MEDV", VDouble 21.6)] ].

Definition df2 : Spark.DataFrame :=
  {| Spark.schema := housing_schema; Spark.plan := Spark.Done housing_rows |}.

(** The pipeline fitted on the housing columns. *)
Definition pipeline : Spark.PipelineModel :=
  {| Spark.label_col := "MEDV";
     Spark.feature_cols := map fst housing_features;
     Spark.regressor := regressor |}.

Definition empty_world : World := {| files := ∅; score_pipeline := None |}.
Definition saved_world : World := {| files := {[ "housing.model" := pipeline ]}; score_pipeline := None |}.
Definition ready_world : World := {| files := {[ "housing.model" := pipeline ]}; score_pipeline := Some pipeline |}.

End Fake.

(** * Properties *)

(** ** Strings: appending, dropping the last character, splitting *)

Section StringFacts.

Lemma app_nil_l (b : string) : "" +:+ b = b.
Proof. reflexivity. Qed.

Lemma app_cons (c : ascii) (a b : string) : String c a +:+ b = String c (a +:+ b).
Proof. reflexivity. Qed.

Lemma app_empty_r (s : string) : s +:+ "" = s.
Proof. induction s as [|c s IH]; [reflexivity | now rewrite app_cons, IH]. Qed.

Lemma app_assoc (a b c : string) : (a +:+ b) +:+ c = a +:+ (b +:+ c).
Proof. induction a as [|x a IH]; [reflexivity | now rewrite !app_cons, IH]. Qed.

Lemma app_nonempty_r (a b : string) : b <> "" -> a +:+ b <> "".
Proof. destruct a; [now rewrite app_nil_l | rewrite app_cons; discriminate]. Qed.

Lemma drop_last_cons (c : ascii) (s : string) :
  s <> "" -> drop_last (String c s) = String c (drop_last s).
Proof. destruct s; [tauto | reflexivity]. Qed.

Lemma drop_last_app (a b : string) :
  b <> "" -> drop_last (a +:+ b) = a +:+ drop_last b.
Proof.
  intros Hb. induction a as [|c a IH]; [reflexivity|].
  rewrite !app_cons.
  rewrite drop_last_cons by now apply app_nonempty_r.
  now rewrite IH.
Qed.

Lemma drop_last_snoc (s : string) : drop_last (s +:+ ",") = s.
Proof. rewrite drop_last_app by discriminate. apply app_empty_r. Qed.

Lemma terminated_nonempty (t : string) (ts : list string) : terminated (t :: ts) <> "".
Proof.
  simpl. rewrite app_assoc. apply app_nonempty_r. rewrite app_cons. discriminate.
Qed.

(** Dropping the last character of the accumulated response leaves the
    tokens joined by commas. *)
Lemma drop_last_terminated (toks : list string) :
  drop_last (terminated toks) = String.concat "," toks.
Proof.
  induction toks as [|t [|t' ts] IH]; [reflexivity | |].
  - simpl. rewrite app_empty_r. apply drop_last_snoc.
  - change (terminated (t :: t' :: ts)) with ((t +:+ ",") +:+ terminated (t' :: ts)).
    rewrite drop_last_app by apply terminated_nonempty.
    rewrite IH. rewrite app_assoc. reflexivity.
Qed.

Lemma split_on_clean (c : ascii) (t : string) :
  contains_char c t = false -> split_on c t = [t].
Proof.
  induction t as [|d t IH]; simpl; [reflexivity|].
  intros H. apply orb_false_iff in H as [Hd Ht].
  rewrite Hd, (IH Ht). reflexivity.
Qed.

Lemma split_on_app (c : ascii) (t s : string) :
  contains_char c t = false ->
  split_on c (t +:+ String c s) = t :: split_on c s.
Proof.
  induction t as [|d t IH].
  - intros _. rewrite app_nil_l. simpl. now rewrite Ascii.eqb_refl.
  - intros H. simpl in H. apply orb_false_iff in H as [Hd Ht].
    rewrite app_cons. simpl.
    rewrite Hd, (IH Ht). reflexivity.
Qed.

(** Splitting the joined tokens at the commas gives the tokens back. *)
Lemma split_on_concat (toks : list string) :
  toks <> [] ->
  Forall (fun t => contains_char comma t = false) toks ->
  split_on comma (String.concat "," toks) = toks.
Proof.
  induction toks as [|t [|t' ts] IH]; intros Hne Hall; [congruence | |].
  - simpl. apply split_on_clean. now inversion Hall.
  - inversion Hall as [|? ? Ht Hrest]; subst.
    change (String.concat "," (t :: t' :: ts))
      with (t +:+ String comma (String.concat "," (t' :: ts))).
    rewrite split_on_app by exact Ht.
    rewrite IH; [reflexivity | discriminate | exact Hrest].
Qed.

Lemma ends_with_cons (c d : ascii) (s : string) :
  s <> "" -> ends_with c (String d s) = ends_with c s.
Proof. destruct s; [tauto | reflexivity]. Qed.

Lemma ends_with_app (c : ascii) (a b : string) :
  b <> "" -> ends_with c (a +:+ b) = ends_with c b.
Proof.
  intros Hb. induction a as [|d a IH]; [reflexivity|].
  rewrite app_cons, ends_with_cons by now apply app_nonempty_r.
  exact IH.
Qed.

Lemma ends_with_clean (c : ascii) (t : string) :
  contains_char c t = false -> ends_with c t = false.
Proof.
  induction t as [|d t IH]; simpl; [reflexivity|].
  intros H. apply orb_false_iff in H as [Hd Ht].
  destruct t; [exact Hd | exact (IH Ht)].
Qed.

Lemma concat_nonempty (toks : list string) :
  toks <> [] -> Forall (fun t => t <> "") toks -> String.concat "," toks <> "".
Proof.
  destruct toks as [|t [|t' ts]]; intros Hne Hall; [congruence | |].
  - simpl. now inversion Hall.
  - change (String.concat "," (t :: t' :: ts))
      with (t +:+ String comma (String.concat "," (t' :: ts))).
    apply app_nonempty_r. discriminate.
Qed.

(** Joined non-empty comma-free tokens do not end in a comma. *)
Lemma ends_with_concat (toks : list string) :
  Forall (fun t => t <> "") toks ->
  Forall (fun t => contains_char comma t = false) toks ->
  ends_with comma (String.concat "," toks) = false.
Proof.
  induction toks as [|t [|t' ts] IH]; intros Hne Hall; [reflexivity | |].
  - simpl. apply ends_with_clean. now inversion Hall.
  - inversion Hne as [|? ? _ Hne']; inversion Hall as [|? ? _ Hall']; subst.
    change (String.concat "," (t :: t' :: ts))
      with (t +:+ ("," +:+ String.concat "," (t' :: ts))).
    rewrite ends_with_app by (apply app_nonempty_r, concat_nonempty; [discriminate | exact Hne']).
    rewrite ends_with_app by (apply concat_nonempty; [discriminate | exact Hne']).
    now apply IH.
Qed.

End StringFacts.

(** ** Facts about the pyspark calls *)

Section SparkFacts.
Import Spark Valid.

Lemma field_app {A : Type} (n : string) (a b : list (string * A)) :
  field n (a ++ b) = match field n a with Some v => Some v | None => field n b end.
Proof.
  induction a as [|[m x] a IH]; simpl; [reflexivity|].
  destruct (String.eqb m n); [reflexivity | exact IH].
Qed.

Lemma field_None_names {A B : Type} (n : string)
    (fs : list (string * A)) (gs : list (string * B)) :
  map fst fs = map fst gs -> field n gs = None -> field n fs = None.
Proof.
  revert gs. induction fs as [|[m x] fs IH]; intros [|[m' y] gs] Hnames; simpl in *;
    try discriminate; try reflexivity.
  injection Hnames as -> Hrest.
  destruct (String.eqb m' n); [discriminate | now apply IH].
Qed.

Lemma mapM_job_map {A B : Type} (f : A -> job B) (g : A -> B) (l : list A) :
  Forall (fun x => f x = Done (g x)) l -> mapM f l = Done (map g l).
Proof.
  induction 1 as [|x l Hx _ IH]; [reflexivity|].
  simpl. rewrite Hx. simpl. rewrite IH. reflexivity.
Qed.

Lemma first_error_None (checks : list (option PyException)) :
  first_error checks = None <-> Forall (fun c => c = None) checks.
Proof.
  induction checks as [|[e|] checks IH]; simpl.
  - split; constructor.
  - split; [discriminate | inversion 1; discriminate].
  - rewrite IH. split; [now constructor | now inversion 1].
Qed.

Lemma first_error_Exception (checks : list (option PyException)) (e : PyException) :
  Forall (fun c => forall e', c = Some e' -> is_Exception e' = true) checks ->
  first_error checks = Some e -> is_Exception e = true.
Proof.
  induction 1 as [|[e'|] checks Hc _ IH]; simpl; [discriminate | |exact IH].
  intros [= <-]. now apply Hc.
Qed.

Lemma check_feature_Exception (sch : Schema) (c : string) (e : PyException) :
  check_feature sch c = Some e -> is_Exception e = true.
Proof.
  unfold check_feature. destruct (field c sch) as [t|]; [destruct (is_numeric t)|];
    intros [= <-]; reflexivity.
Qed.

Lemma check_output_Exception (sch : Schema) (c : string) (e : PyException) :
  check_output sch c = Some e -> is_Exception e = true.
Proof.
  unfold check_output. destruct (has_column c sch); intros [= <-]; reflexivity.
Qed.

(** Whatever [transform] raises is an instance of [Exception]. *)
Lemma transform_raises_Exception (p : PipelineModel) (df : DataFrame) (e : PyException) :
  transform p df = Raise e -> is_Exception e = true.
Proof.
  unfold transform. destruct (transform_check p (schema df)) as [e'|] eqn:E; [|discriminate].
  intros [= <-]. revert E. unfold transform_check. apply first_error_Exception.
  apply Forall_app. split.
  - apply Forall_forall. intros c Hc e'' ->.
    apply list_elem_of_In, in_map_iff in Hc as (c' & Hc' & _).
    eapply check_feature_Exception; eauto.
  - repeat constructor; intros e''; apply check_output_Exception.
Qed.

(** Whatever an action raises is an instance of [Exception]. *)
Lemma run_job_raises_Exception {A : Type} (action : string) (j : job A) (e : PyException) :
  run_job action j = Raise e -> is_Exception e = true.
Proof. destruct j; simpl; [discriminate | intros [= <-]; reflexivity]. Qed.

Lemma check_feature_numeric (sch : Schema) (c : string) :
  check_feature sch c = None <-> numeric_column sch c = true.
Proof.
  unfold check_feature, numeric_column.
  destruct (field c sch) as [t|]; [destruct (is_numeric t)|]; split; congruence.
Qed.

(** The schema check of [transform] passes exactly on the schemas that
    [schema_ok] accepts. *)
Lemma transform_check_schema_ok (p : PipelineModel) (sch : Schema) :
  transform_check p sch = None <-> schema_ok p sch = true.
Proof.
  unfold transform_check, schema_ok.
  rewrite first_error_None, Forall_app, !andb_true_iff, forallb_forall, Forall_forall.
  unfold check_output.
  split.
  - intros [Hf Ho]. inversion Ho as [|? ? H1 Ho']; inversion Ho' as [|? ? H2 _]; subst.
    repeat split.
    + intros c Hc. apply check_feature_numeric, Hf, list_elem_of_In, in_map. exact Hc.
    + destruct (has_column "features" sch); [discriminate | reflexivity].
    + destruct (has_column "prediction" sch); [discriminate | reflexivity].
  - intros [[Hf H1] H2]. split.
    + intros o Ho. apply list_elem_of_In, in_map_iff in Ho as (c & <- & Hc).
      apply check_feature_numeric, Hf, Hc.
    + apply negb_true_iff in H1, H2. rewrite H1, H2. repeat constructor.
Qed.

End SparkFacts.

(** ** Scoring a valid input *)

Section Scoring.
Import Spark Valid.

Lemma as_double_numeric (n : string) (v : option value) :
  numeric_cell v = true -> as_double n v = Done (cell_double v).
Proof. destruct v as [[| | | |]|]; simpl; congruence. Qed.

Lemma assemble_ok (cols : list string) (row : Row) :
  forallb (fun c => numeric_cell (field c row)) cols = true ->
  assemble cols row = Done (features_of cols row).
Proof.
  intros H. unfold assemble, features_of. apply mapM_job_map.
  apply Forall_forall. intros c Hc. apply as_double_numeric.
  rewrite forallb_forall in H. apply H, list_elem_of_In, Hc.
Qed.

Lemma label_field_ok (p : PipelineModel) (row : Row) :
  match field (label_col p) row with
  | Some v => numeric_cell (Some v)
  | None => true
  end = true ->
  label_field p row = Done (label_cells p row).
Proof.
  unfold label_field, label_cells. destruct (field (label_col p) row) as [v|]; [|reflexivity].
  intros H. rewrite (as_double_numeric _ _ H). reflexivity.
Qed.

Lemma score_row_ok (p : PipelineModel) (sch : Schema) (row : Row) :
  row_ok p sch row = true -> score_row p row = Done (scored p row).
Proof.
  unfold row_ok. rewrite !andb_true_iff. intros [[_ Hf] Hl].
  unfold score_row. rewrite (assemble_ok _ _ Hf). simpl.
  rewrite (label_field_ok _ _ Hl). reflexivity.
Qed.

Lemma label_cells_no_prediction (p : PipelineModel) (row : Row) :
  field "prediction" (label_cells p row) = None.
Proof. unfold label_cells. destruct (field (label_col p) row); reflexivity. Qed.

(** The field [prediction] of a scored row is the prediction for the row. *)
Lemma scored_prediction (p : PipelineModel) (sch : Schema) (row : Row) :
  schema_ok p sch = true ->
  row_ok p sch row = true ->
  Row_getitem (scored p row) "prediction" = Return (VDouble (predict p row)).
Proof.
  unfold schema_ok, row_ok. rewrite !andb_true_iff.
  intros [[_ _] Hfresh] [[Hnames _] _].
  apply bool_decide_eq_true in Hnames. apply negb_true_iff in Hfresh.
  assert (field "prediction" row = None) as Hrow.
  { apply (field_None_names _ _ sch Hnames). unfold has_column in Hfresh.
    destruct (field "prediction" sch); [discriminate | reflexivity]. }
  unfold Row_getitem, scored. rewrite !field_app, Hrow, label_cells_no_prediction.
  reflexivity.
Qed.

(** On a valid input [transform] succeeds, and collecting the result gives
    one scored row per input row, in the order of the input. *)
Lemma transform_collect_valid (p : PipelineModel) (df : DataFrame) :
  valid_input p df = true ->
  exists sc, transform p df = Return sc
             /\ collect sc = Return (map (scored p) (rows_of df)).
Proof.
  unfold valid_input, rows_of. rewrite andb_true_iff. intros [Hs Hr].
  unfold transform. rewrite (proj2 (transform_check_schema_ok _ _) Hs).
  eexists; split; [reflexivity|].
  unfold collect. simpl. destruct (plan df) as [rows|]; [|discriminate].
  simpl. rewrite (mapM_job_map _ (scored p)); [reflexivity|].
  apply Forall_forall. intros row Hrow. apply (score_row_ok _ (schema df)).
  rewrite forallb_forall in Hr. apply Hr, list_elem_of_In, Hrow.
Qed.

Lemma valid_input_rows (p : PipelineModel) (df : DataFrame) :
  valid_input p df = true ->
  schema_ok p (schema df) = true
  /\ Forall (fun row => row_ok p (schema df) row = true) (rows_of df).
Proof.
  unfold valid_input, rows_of. rewrite andb_true_iff. intros [Hs Hr]. split; [exact Hs|].
  destruct (plan df) as [rows|]; [|constructor].
  apply Forall_forall. intros row Hrow.
  rewrite forallb_forall in Hr. apply Hr, list_elem_of_In, Hrow.
Qed.

Lemma field_names_Some {A : Type} (n : string) (fs : list (string * A)) :
  In n (map fst fs) -> exists v, field n fs = Some v /\ In v (map snd fs).
Proof.
  induction fs as [|[m x] fs IH]; simpl; [tauto|].
  intros H. destruct (String.eqb m n) eqn:E; [eauto|].
  destruct H as [->|H]; [now rewrite String.eqb_refl in E|].
  destruct (IH H) as (v & Hv & Hin). eauto.
Qed.

(** A table whose columns are exactly the feature columns of the pipeline,
    all of a numeric type, passes the schema check (the names of the output
    columns apart). *)
Lemma schema_ok_exact_columns (p : PipelineModel) (sch : Schema) :
  map fst sch = feature_cols p ->
  Forall (fun t => is_numeric t = true) (map snd sch) ->
  has_column "features" sch = false ->
  has_column "prediction" sch = false ->
  schema_ok p sch = true.
Proof.
  intros Hcols Htypes H1 H2. unfold schema_ok. rewrite H1, H2, !andb_true_r.
  apply forallb_forall. intros c Hc. rewrite <- Hcols in Hc.
  destruct (field_names_Some _ _ Hc) as (t & Ht & Hin).
  unfold numeric_column. rewrite Ht.
  rewrite Forall_forall in Htypes. apply Htypes, list_elem_of_In, Hin.
Qed.

End Scoring.

(** ** The request handler *)

Section RunFacts.
Context {O : Opaque}.
Import Spark Valid.

(** [run], case by case. *)
Lemma run_cases (df : DataFrame) (w : World) :
  run df w =
  match score_pipeline w with
  | None => (Return "name 'pipeline' is not defined", w)
  | Some p =>
      match transform p df with
      | Raise e => if is_Exception e then (Return (str_exc e), w) else (Raise e, w)
      | Return sc =>
          match collect sc with
          | Raise e => if is_Exception e then (Return (str_exc e), w) else (Raise e, w)
          | Return preds =>
              match for_each preds "" append_prediction w with
              | (Return r, w') => (Return (drop_last r), w')
              | (Raise e, w') =>
                  if is_Exception e then (Return (str_exc e), w') else (Raise e, w')
              end
          end
      end
  end.
Proof.
  unfold run, try_except_Exception, read_pipeline, lift, mbind, Py_bind, mret, Py_ret.
  destruct (score_pipeline w) as [p|]; [|reflexivity].
  destruct (transform p df) as [sc|e]; [|reflexivity].
  destruct (collect sc) as [preds|e]; [|reflexivity].
  destruct (for_each preds "" append_prediction w) as [[r|e] w']; reflexivity.
Qed.

Lemma append_prediction_cases (response : string) (pred : Row) (w : World) :
  append_prediction response pred w =
  match Row_getitem pred "prediction" with
  | Return v => (Return (response +:+ (py_str v +:+ ",")), w)
  | Raise e => (Raise e, w)
  end.
Proof.
  unfold append_prediction, lift, mbind, Py_bind, mret, Py_ret.
  destruct (Row_getitem pred "prediction"); reflexivity.
Qed.

Lemma for_each_cons {A S : Type} (x : A) (xs : list A) (s : S) (body : S -> A -> Py S)
    (w : World) :
  for_each (x :: xs) s body w =
  match body s x w with
  | (Return s', w') => for_each xs s' body w'
  | (Raise e, w') => (Raise e, w')
  end.
Proof. reflexivity. Qed.

(** The loop appends one token and one comma per collected row, in order. *)
Lemma loop_renders (tok : Row -> float) (preds : list Row) (acc : string) (w : World) :
  Forall (fun pred => Row_getitem pred "prediction" = Return (VDouble (tok pred))) preds ->
  for_each preds acc append_prediction w =
  (Return (acc +:+ terminated (map (fun pred => str_float (tok pred)) preds)), w).
Proof.
  intros H. revert acc. induction H as [|pred preds Hp _ IH]; intros acc.
  - simpl. rewrite app_empty_r. reflexivity.
  - rewrite for_each_cons, append_prediction_cases, Hp, IH.
    simpl. rewrite app_assoc. reflexivity.
Qed.

(** The loop never touches the state, and what it raises (a [ValueError]
    for a row without the field) is an instance of [Exception]. *)
Lemma loop_frame (preds : list Row) (acc : string) (w : World) :
  exists o, for_each preds acc append_prediction w = (o, w)
            /\ forall e, o = Raise e -> is_Exception e = true.
Proof.
  revert acc. induction preds as [|pred preds IH]; intros acc.
  - eexists; split; [reflexivity | discriminate].
  - rewrite for_each_cons, append_prediction_cases.
    unfold Row_getitem. destruct (field "prediction" pred) as [v|].
    + apply IH.
    + eexists; split; [reflexivity|]. intros e [= <-]. reflexivity.
Qed.

(** [run] returns a string and leaves the state as it was, whatever the
    input and the state. *)
Lemma run_total (df : DataFrame) (w : World) : exists s, run df w = (Return s, w).
Proof.
  rewrite run_cases.
  destruct (score_pipeline w) as [p|]; [|eauto].
  destruct (transform p df) as [sc|e] eqn:Ht.
  - destruct (collect sc) as [preds|e] eqn:Hc.
    + destruct (loop_frame preds "" w) as (o & -> & Ho).
      destruct o as [r|e]; [eauto|]. rewrite (Ho e eq_refl). eauto.
    + rewrite (run_job_raises_Exception _ _ _ Hc). eauto.
  - rewrite (transform_raises_Exception _ _ _ Ht). eauto.
Qed.

(** The result of [run] depends on the state through the loaded pipeline
    only. *)
Lemma run_depends_on_pipeline (df : DataFrame) (w1 w2 : World) :
  score_pipeline w1 = score_pipeline w2 -> fst (run df w1) = fst (run df w2).
Proof.
  intros H. rewrite !run_cases, H.
  destruct (score_pipeline w2) as [p|]; [|reflexivity].
  destruct (transform p df) as [sc|e]; [|destruct (is_Exception e); reflexivity].
  destruct (collect sc) as [preds|e]; [|destruct (is_Exception e); reflexivity].
  destruct (loop_frame preds "" w1) as (o1 & E1 & _).
  destruct (loop_frame preds "" w2) as (o2 & E2 & _).
  assert (o1 = o2) as ->.
  { clear -E1 E2. revert E1 E2. generalize "". revert o1 o2.
    induction preds as [|pred preds IH]; intros o1 o2 acc.
    - simpl. unfold mret, Py_ret. congruence.
    - rewrite !for_each_cons, !append_prediction_cases.
      destruct (Row_getitem pred "prediction"); [apply IH | congruence]. }
  rewrite E1, E2. destruct o2 as [r|e]; [reflexivity | destruct (is_Exception e); reflexivity].
Qed.

(** On a valid input of the loaded pipeline [run] returns the predictions
    of the rows, rendered by [str] and joined by commas. *)
Lemma run_valid (df : DataFrame) (w : World) (p : PipelineModel) :
  score_pipeline w = Some p ->
  valid_input p df = true ->
  run df w =
  (Return (String.concat "," (map (fun row => str_float (predict p row)) (rows_of df))), w).
Proof.
  intros Hp Hv. rewrite run_cases, Hp.
  destruct (transform_collect_valid _ _ Hv) as (sc & -> & ->).
  destruct (valid_input_rows _ _ Hv) as [Hs Hrows].
  rewrite (loop_renders (fun pred => match field "prediction" pred with
                                     | Some (VDouble x) => x
                                     | _ => 0%float
                                     end)).
  - rewrite app_nil_l, drop_last_terminated, map_map.
    f_equal. f_equal. f_equal. apply map_ext_Forall.
    eapply Forall_impl; [exact Hrows|]. intros row Hrow. simpl.
    pose proof (scored_prediction _ _ _ Hs Hrow) as E. unfold Row_getitem in E.
    destruct (field "prediction" (scored p row)) as [v|]; [|discriminate].
    injection E as ->. reflexivity.
  - apply Forall_map. eapply Forall_impl; [exact Hrows|]. intros row Hrow. simpl.
    pose proof (scored_prediction _ _ _ Hs Hrow) as E. rewrite E. unfold Row_getitem in E.
    destruct (field "prediction" (scored p row)) as [v|]; [|discriminate].
    injection E as ->. reflexivity.
Qed.

End RunFacts.

(** ** The fake collaborators satisfy the laws of [str] *)

Lemma fake_render_nonempty (x : float) : Fake.render x <> "".
Proof. unfold Fake.render. repeat destruct (PrimFloat.eqb x _); discriminate. Qed.

Lemma fake_render_no_comma (x : float) : contains_char comma (Fake.render x) = false.
Proof. unfold Fake.render. repeat destruct (PrimFloat.eqb x _); reflexivity. Qed.

#[export] Instance fake_laws : OpaqueLaws Fake.opaque.
Proof. split; [exact fake_render_nonempty | exact fake_render_no_comma]. Qed.

(** ** The service contract *)

Section Contract.
Context {O : Opaque}.
Import Spark Valid.

(** C1.  On every valid input table of the loaded pipeline (its columns
    are the trained feature columns, every cell a number) [run] returns the
    predictions of the rows, each rendered by [str], joined by commas in the
    order of the rows: one token per row, which splitting at the commas
    gives back, and no comma at the end. *)
Theorem run_renders_predictions {L : OpaqueLaws O}
    (df : DataFrame) (w : World) (p : PipelineModel) :
  score_pipeline w = Some p ->
  valid_input p df = true ->
  let tokens := map (fun row => str_float (predict p row)) (rows_of df) in
  run df w = (Return (String.concat "," tokens), w)
  /\ length tokens = length (rows_of df)
  /\ (rows_of df <> [] -> split_on comma (String.concat "," tokens) = tokens)
  /\ ends_with comma (String.concat "," tokens) = false.
Proof.
  intros Hp Hv tokens. split; [now apply run_valid|].
  split; [apply length_map|].
  assert (Forall (fun t => contains_char comma t = false) tokens) as Hclean.
  { apply Forall_map, Forall_forall. intros row _. apply str_float_no_comma. }
  assert (Forall (fun t => t <> "") tokens) as Hfull.
  { apply Forall_map, Forall_forall. intros row _. apply str_float_nonempty. }
  split; [|now apply ends_with_concat].
  intros Hne. apply split_on_concat; [|exact Hclean].
  subst tokens. destruct (rows_of df); [congruence | discriminate].
Qed.

(** C2.  When [transform] or [collect] raises on the input, [run] returns
    the text of the exception as its ordinary result and raises nothing; an
    input table that lacks a feature column of the pipeline is such an
    input. *)
Theorem run_catches_scoring_failure (df : DataFrame) (w : World) (p : PipelineModel) :
  score_pipeline w = Some p ->
  (forall e, transform p df = Raise e -> run df w = (Return (str_exc e), w))
  /\ (forall sc e, transform p df = Return sc -> collect sc = Raise e ->
        run df w = (Return (str_exc e), w))
  /\ (forall c, In c (feature_cols p) -> has_column c (schema df) = false ->
        exists e, transform p df = Raise e /\ run df w = (Return (str_exc e), w)).
Proof.
  intros Hp.
  assert (forall e, transform p df = Raise e -> run df w = (Return (str_exc e), w)) as Ht.
  { intros e He. rewrite run_cases, Hp, He, (transform_raises_Exception _ _ _ He). reflexivity. }
  split; [exact Ht|]. split.
  - intros sc e Hsc He.
    rewrite run_cases, Hp, Hsc, He, (run_job_raises_Exception _ _ _ He). reflexivity.
  - intros c Hc Hmiss.
    destruct (transform p df) as [sc|e] eqn:E; [|eauto].
    exfalso. unfold transform in E.
    destruct (transform_check p (schema df)) eqn:Hchk; [discriminate|].
    apply transform_check_schema_ok in Hchk. unfold schema_ok in Hchk.
    rewrite !andb_true_iff, forallb_forall in Hchk. destruct Hchk as [[Hf _] _].
    specialize (Hf c Hc). unfold numeric_column in Hf. unfold has_column in Hmiss.
    destruct (field c (schema df)); discriminate.
Qed.

(** C8.  With the name [pipeline] unbound ([init] was never called) [run]
    returns the text of the [NameError] on every input; and in every state,
    initialized or not, [run] returns a string and does not raise. *)
Theorem run_without_init (df : DataFrame) (w : World) :
  score_pipeline w = None ->
  run df w = (Return "name 'pipeline' is not defined", w)
  /\ forall df' w', exists s, run df' w' = (Return s, w').
Proof.
  intros Hp. split; [|intros df' w'; apply run_total].
  rewrite run_cases, Hp. reflexivity.
Qed.

(** C9.  For a table of zero rows with valid feature columns [run] returns
    the empty string. *)
Theorem run_empty_table (df : DataFrame) (w : World) (p : PipelineModel) :
  score_pipeline w = Some p ->
  schema_ok p (schema df) = true ->
  plan df = Done [] ->
  run df w = (Return "", w).
Proof.
  intros Hp Hs Hrows.
  assert (valid_input p df = true) as Hv.
  { unfold valid_input. rewrite Hs, Hrows. reflexivity. }
  rewrite (run_valid _ _ _ Hp Hv). unfold rows_of. rewrite Hrows. reflexivity.
Qed.

(** C10.  [run] leaves the state as it found it, the loaded pipeline
    included (its input table is a value it only reads); so does any
    sequence of [run] calls, after which the loaded pipeline is the one the
    last [init] assigned, which is the persisted one. *)
Theorem run_preserves_state (df : DataFrame) (requests : list DataFrame) (w : World) :
  snd (run df w) = w
  /\ snd (serve requests w) = w
  /\ score_pipeline (snd ((_ ← init; serve requests) w)) = score_pipeline (snd (init w))
  /\ (forall p, files w !! "housing.model" = Some p ->
        score_pipeline (snd ((_ ← init; serve requests) w)) = Some p).
Proof.
  assert (forall dfs w0, exists rs, serve dfs w0 = (Return rs, w0)) as Hserve.
  { induction dfs as [|d dfs IH]; intros w0; [eexists; reflexivity|].
    destruct (run_total d w0) as [s Hs]. destruct (IH w0) as [rs Hrs].
    exists (s :: rs). unfold serve in *. simpl.
    unfold mbind, Py_bind at 1. rewrite Hs.
    unfold mbind, Py_bind at 1. rewrite Hrs. reflexivity. }
  assert (score_pipeline (snd ((_ ← init; serve requests) w)) = score_pipeline (snd (init w)))
    as Hlast.
  { unfold mbind, Py_bind at 1.
    destruct (init w) as [[[]|e] w1]; [|reflexivity].
    destruct (Hserve requests w1) as [rs ->]. reflexivity. }
  split; [|split; [|split]].
  - destruct (run_total df w) as [s ->]. reflexivity.
  - destruct (Hserve requests w) as [rs ->]. reflexivity.
  - exact Hlast.
  - intros p Hfile. rewrite Hlast.
    unfold init, PipelineModel_load, assign_pipeline, mbind, Py_bind. rewrite Hfile. reflexivity.
Qed.

End Contract.

(** ** Persistence and the initializer *)

Section Persistence.
Context {O : Opaque}.
Import Spark Valid.

Lemma save_model_cases (p : PipelineModel) (w : World) :
  save_model p w =
  (Return tt, {| files := <["housing.model" := p]> (files w);
                 score_pipeline := score_pipeline w |}).
Proof.
  unfold save_model, save, overwrite, write. simpl.
  destruct (files w !! "housing.model"); reflexivity.
Qed.

Lemma init_cases (w : World) :
  init w =
  match files w !! "housing.model" with
  | Some p => (Return tt, {| files := files w; score_pipeline := Some p |})
  | None => (Raise (mkExc Py4JJavaError "Input path does not exist: housing.model"), w)
  end.
Proof.
  unfold init, PipelineModel_load, assign_pipeline, mbind, Py_bind.
  destruct (files w !! "housing.model"); reflexivity.
Qed.

(** Without [overwrite()] the writer refuses a path that is taken. *)
Lemma save_refuses_without_overwrite (p old : PipelineModel) (path : string) (w : World) :
  files w !! path = Some old ->
  save (write p) path w = (Raise (mkExc IOError ("Path " +:+ path +:+ " already exists.")), w).
Proof. intros H. unfold save, write. simpl. rewrite H. reflexivity. Qed.

(** C3.  Saving a fitted pipeline where an earlier one is stored succeeds
    and replaces it, whatever the earlier one was; [init] then loads the
    pipeline saved last, and [run] answers as that pipeline does. *)
Theorem save_overwrites_and_init_loads_latest
    (w : World) (old new : PipelineModel) (df : DataFrame) :
  files w !! "housing.model" = Some old ->
  let w1 := snd (save_model new w) in
  fst (save_model new w) = Return tt
  /\ files w1 !! "housing.model" = Some new
  /\ init w1 = (Return tt, {| files := files w1; score_pipeline := Some new |})
  /\ fst (run df (snd (init w1))) = fst (run df {| files := ∅; score_pipeline := Some new |}).
Proof.
  intros _ w1. subst w1. rewrite save_model_cases. simpl.
  assert (<["housing.model" := new]> (files w) !! "housing.model" = Some new) as Hnew
    by apply lookup_insert_eq.
  split; [reflexivity|]. split; [exact Hnew|].
  rewrite init_cases. simpl. rewrite Hnew.
  split; [reflexivity|]. apply run_depends_on_pipeline. reflexivity.
Qed.

(** C5.  A second call of [init] changes nothing: it gives the outcome and
    the state of the first, so [run] after two calls answers as after one. *)
Theorem init_twice (df : DataFrame) (w : World) :
  init (snd (init w)) = init w
  /\ run df (snd (init (snd (init w)))) = run df (snd (init w))
  /\ (_ ← init; _ ← init; run df) w = (_ ← init; run df) w.
Proof.
  assert (init (snd (init w)) = init w) as Hii.
  { rewrite (init_cases w).
    destruct (files w !! "housing.model") as [p|] eqn:E; simpl.
    - rewrite init_cases. simpl. rewrite E. reflexivity.
    - rewrite init_cases, E. reflexivity. }
  split; [exact Hii|]. split; [now rewrite Hii|].
  unfold mbind, Py_bind.
  destruct (init w) as [[[]|e] w1] eqn:E; [|reflexivity].
  simpl in Hii. rewrite Hii. reflexivity.
Qed.

End Persistence.

(** ** The training stage *)

Section TrainingFacts.
Context {O : Opaque}.
Import Spark Valid Training.

Lemma has_column_false_field (c : string) (sch : Schema) :
  has_column c sch = false -> field c sch = None.
Proof. unfold has_column. destruct (field c sch); [discriminate | reflexivity]. Qed.

Lemma checks_numeric (sch : Schema) (cols : list string) :
  forallb (numeric_column sch) cols = true ->
  first_error (map (check_feature sch) cols) = None.
Proof.
  intros H. apply first_error_None, Forall_forall. intros o Ho.
  apply list_elem_of_In, in_map_iff in Ho as (c & <- & Hc).
  rewrite forallb_forall in H. apply check_feature_numeric, H, Hc.
Qed.

(** A trainable table is a valid input of the pipeline fitted on it. *)
Lemma trainable_valid_input (label : string) (df : DataFrame) :
  trainable label df = true -> valid_input (fitted label df) df = true.
Proof.
  unfold trainable, valid_input, schema_ok, row_ok. intros Ht.
  rewrite !andb_true_iff in Ht. destruct Ht as [[[[[Hl Hf] H1] H2] H3] Hrows]. simpl.
  rewrite Hf, H1, H3. simpl.
  destruct (plan df) as [rows|]; [|discriminate].
  rewrite forallb_forall in Hrows. apply forallb_forall. intros row Hrow.
  specialize (Hrows row Hrow). simpl in Hrows.
  rewrite !andb_true_iff in Hrows. destruct Hrows as [Hn [Hlc Hfc]].
  rewrite Hn, Hfc. simpl.
  destruct (field label row) as [v|]; [exact Hlc | reflexivity].
Qed.

(** Fitting a trainable table succeeds and gives [fitted]. *)
Lemma fit_trainable (label : string) (df : DataFrame) :
  trainable label df = true -> fit label df = Return (fitted label df).
Proof.
  unfold trainable. intros Ht. rewrite !andb_true_iff in Ht.
  destruct Ht as [[[[[Hl Hf] _] _] _] Hrows].
  unfold fit. fold (formula_features label df).
  rewrite (checks_numeric _ (label :: formula_features label df))
    by (simpl; rewrite Hl, Hf; reflexivity).
  unfold fitted, training_pairs, rows_of.
  destruct (plan df) as [rows|]; [|discriminate]. simpl.
  rewrite (mapM_job_map _ (fun row => (features_of (formula_features label df) row,
                                       target label row))); [reflexivity|].
  apply Forall_forall. intros row Hrow.
  rewrite forallb_forall in Hrows. specialize (Hrows row (proj1 (list_elem_of_In _ _) Hrow)).
  simpl in Hrows. rewrite !andb_true_iff in Hrows. destruct Hrows as [_ [Hlc Hfc]].
  rewrite (assemble_ok _ _ Hfc). simpl.
  rewrite (as_double_numeric _ _ Hlc). reflexivity.
Qed.

(** The result of [transform] on a valid input. *)
Lemma transform_valid (p : PipelineModel) (df : DataFrame) :
  valid_input p df = true ->
  transform p df = Return {| schema := transform_schema p (schema df);
                             plan := Done (map (scored p) (rows_of df)) |}.
Proof.
  intros Hv. destruct (valid_input_rows _ _ Hv) as [Hs Hrows].
  unfold transform. rewrite (proj2 (transform_check_schema_ok _ _) Hs).
  do 2 f_equal.
  unfold valid_input in Hv. rewrite andb_true_iff in Hv. destruct Hv as [_ Hv].
  unfold rows_of in *. destruct (plan df) as [rows|]; [|discriminate]. simpl.
  apply mapM_job_map. eapply Forall_impl; [exact Hrows|].
  intros row. apply score_row_ok.
Qed.

(** The field [label] of a scored training row is its target value. *)
Lemma scored_label (label : string) (df : DataFrame) (row : Row) :
  has_column "label" (schema df) = false ->
  bool_decide (map fst row = map fst (schema df)) = true ->
  numeric_cell (field label row) = true ->
  field "label" (scored (fitted label df) row) = Some (VDouble (target label row)).
Proof.
  intros Hfresh Hnames Hnum. apply bool_decide_eq_true in Hnames.
  assert (field "label" row = None) as Hrow
    by (apply (field_None_names _ _ (schema df) Hnames), has_column_false_field, Hfresh).
  unfold scored. rewrite !field_app, Hrow. simpl.
  unfold label_cells, target. simpl.
  destruct (field label row) as [v|]; [reflexivity | discriminate].
Qed.

(** C6.  On a trainable table the training stage returns the pipeline
    fitted on the rows of the table and, as its score, the coefficient of
    determination of the pairs (prediction of that pipeline on the row,
    actual target of the row) over the same rows: no row is held out. *)
Theorem training_score_is_r2_on_training_table (df2 : DataFrame) :
  trainable "MEDV" df2 = true ->
  training_stage df2 =
  Return (fitted "MEDV" df2,
          r2_metric (map (fun row => (predict (fitted "MEDV" df2) row, target "MEDV" row))
                         (rows_of df2)))
  /\ regressor (fitted "MEDV" df2)
     = gbt_fit (map (fun row => (features_of (feature_cols (fitted "MEDV" df2)) row,
                                 target "MEDV" row))
                    (rows_of df2)).
Proof.
  intros Ht. split; [|reflexivity].
  pose proof (trainable_valid_input _ _ Ht) as Hv.
  destruct (valid_input_rows _ _ Hv) as [Hs Hrows].
  unfold training_stage, train. rewrite (fit_trainable _ _ Ht). simpl.
  unfold evaluate_scores. rewrite (transform_valid _ _ Hv). simpl.
  unfold trainable in Ht. rewrite !andb_true_iff in Ht.
  destruct Ht as [[[[[Hl _] H1] H2] H3] Hcells].
  apply negb_true_iff in H1, H2, H3.
  unfold evaluate. simpl.
  assert (has_column "MEDV" (schema df2) = true) as Hmedv.
  { unfold numeric_column in Hl. unfold has_column.
    destruct (field "MEDV" (schema df2)); [reflexivity | discriminate]. }
  unfold transform_schema. simpl. rewrite Hmedv.
  unfold check_feature. rewrite !field_app.
  rewrite (has_column_false_field _ _ H2), (has_column_false_field _ _ H3). simpl.
  rewrite (mapM_job_map _ (fun row' => (match field "prediction" row' with
                                         | Some (VDouble x) => x
                                         | _ => 0%float
                                         end,
                                         match field "label" row' with
                                         | Some (VDouble x) => x
                                         | _ => 0%float
                                         end))).
  - simpl. do 3 f_equal. rewrite map_map. apply map_ext_Forall.
    unfold rows_of in *. destruct (plan df2) as [rows|]; [|constructor].
    rewrite forallb_forall in Hcells.
    apply Forall_forall. intros row Hrow.
    specialize (Hcells row (proj1 (list_elem_of_In _ _) Hrow)). simpl in Hcells.
    rewrite !andb_true_iff in Hcells. destruct Hcells as [Hn [Hlc _]].
    rewrite Forall_forall in Hrows.
    pose proof (scored_prediction _ _ _ Hs (Hrows row Hrow)) as E.
    unfold Row_getitem in E.
    destruct (field "prediction" (scored (fitted "MEDV" df2) row)) as [v|]; [|discriminate].
    injection E as ->.
    rewrite (scored_label _ _ _ H2 Hn Hlc). reflexivity.
  - apply Forall_map.
    unfold rows_of in *. destruct (plan df2) as [rows|]; [|constructor].
    rewrite forallb_forall in Hcells.
    apply Forall_forall. intros row Hrow.
    specialize (Hcells row (proj1 (list_elem_of_In _ _) Hrow)). simpl in Hcells.
    rewrite !andb_true_iff in Hcells. destruct Hcells as [Hn [Hlc _]].
    rewrite Forall_forall in Hrows.
    pose proof (scored_prediction _ _ _ Hs (Hrows row Hrow)) as E.
    unfold Row_getitem in E. simpl.
    destruct (field "prediction" (scored (fitted "MEDV" df2) row)) as [v|]; [|discriminate].
    injection E as ->.
    rewrite (scored_label _ _ _ H2 Hn Hlc). reflexivity.
Qed.

End TrainingFacts.

(** ** The test cell on the sample input *)

Section Sample.
Context {O : Opaque}.
Import Spark Valid.

(** A pipeline trained on a table with the housing columns has the twelve
    feature columns of the recorded schema and the label [MEDV]. *)
Lemma train_columns (df2 : DataFrame) (p : PipelineModel) :
  schema df2 = housing_schema ->
  train df2 = Return p ->
  label_col p = "MEDV" /\ feature_cols p = map fst housing_features.
Proof.
  intros Hs. unfold train, fit, columns. rewrite Hs.
  change (first_error _) with (@None PyException). cbv beta iota.
  destruct (run_job "fit" _) as [training|e]; simpl; [|discriminate].
  intros [= <-]. split; reflexivity.
Qed.

Lemma label_cell_numeric (l : string) (row : Row) :
  forallb (fun f => numeric_cell (Some (snd f))) row = true ->
  match field l row with
  | Some v => numeric_cell (Some v)
  | None => true
  end = true.
Proof.
  induction row as [|[n v] row IH]; simpl; [reflexivity|].
  intros H. apply andb_true_iff in H as [Hv Hrow].
  destruct (String.eqb n l); [exact Hv | exact (IH Hrow)].
Qed.

(** The sample of the test cell is a valid input of a pipeline with the
    twelve feature columns of the housing table: it has them (and one more,
    [B]), with a number in every cell. *)
Lemma sample_valid_input (p : PipelineModel) :
  feature_cols p = map fst housing_features ->
  valid_input p TestCell.df = true.
Proof.
  intros Hf. unfold valid_input, schema_ok. rewrite Hf.
  apply andb_true_iff. split; [vm_compute; reflexivity|].
  change (plan TestCell.df) with (Done (rows_of TestCell.df)).
  apply forallb_forall. intros row Hrow.
  unfold row_ok. rewrite Hf, !andb_true_iff.
  assert (bool_decide (map fst row = map fst (schema TestCell.df))
          && forallb (fun c => numeric_cell (field c row)) (map fst housing_features)
          && forallb (fun f => numeric_cell (Some (snd f))) row = true) as Hrow'.
  { revert row Hrow. apply forallb_forall. vm_compute. reflexivity. }
  rewrite !andb_true_iff in Hrow'. destruct Hrow' as [[Hn Hc] Hall].
  repeat split; [exact Hn | exact Hc | now apply label_cell_numeric].
Qed.

(** C7.  With a pipeline over the feature columns of the housing table
    persisted, the test cell ([init], then [run] on the three-row sample)
    returns three tokens, each the rendering of a float, joined by two
    commas. *)
Theorem run_sample_three_tokens {L : OpaqueLaws O} (p : PipelineModel) (w : World) :
  feature_cols p = map fst housing_features ->
  files w !! "housing.model" = Some p ->
  exists x1 x2 x3 : float,
    let tokens := [str_float x1; str_float x2; str_float x3] in
    test_cell TestCell.df w
    = (Return (String.concat "," tokens), {| files := files w; score_pipeline := Some p |})
    /\ split_on comma (String.concat "," tokens) = tokens
    /\ length (split_on comma (String.concat "," tokens)) = 3.
Proof.
  intros Hf Hfile.
  pose proof (sample_valid_input p Hf) as Hv.
  destruct (rows_of TestCell.df) as [|r1 [|r2 [|r3 [|r4 rest]]]] eqn:Hrows;
    try (vm_compute in Hrows; discriminate).
  exists (predict p r1), (predict p r2), (predict p r3). intros tokens.
  assert (split_on comma (String.concat "," tokens) = tokens) as Hsplit.
  { apply split_on_concat; [discriminate|].
    subst tokens. repeat constructor; apply str_float_no_comma. }
  split; [|split; [exact Hsplit | now rewrite Hsplit]].
  unfold test_cell, mbind, Py_bind. rewrite init_cases, Hfile.
  rewrite (run_valid TestCell.df {| files := files w; score_pipeline := Some p |} p eq_refl Hv).
  rewrite Hrows. reflexivity.
Qed.

End Sample.

(** * Further properties of the notebook *)

(** ** Dropping a column *)

Section DropColumn.
Context {O : Opaque}.
Import Spark Valid Training.

Lemma field_without {A : Type} (c n : string) (fs : list (string * A)) :
  field n (filter (fun f => negb (String.eqb (fst f) c)) fs)
  = if String.eqb c n then None else field n fs.
Proof.
  induction fs as [|[m x] fs IH]; simpl.
  - destruct (String.eqb c n); reflexivity.
  - rewrite filter_cons. simpl. destruct (String.eqb m c) eqn:Emc; simpl.
    + apply String.eqb_eq in Emc as ->. rewrite IH.
      destruct (String.eqb c n); reflexivity.
    + rewrite IH. destruct (String.eqb m n) eqn:Emn; [|reflexivity].
      apply String.eqb_eq in Emn as ->.
      rewrite String.eqb_sym, Emc. reflexivity.
Qed.

Lemma names_without {A B : Type} (c : string)
    (fs : list (string * A)) (gs : list (string * B)) :
  map fst fs = map fst gs ->
  map fst (filter (fun f => negb (String.eqb (fst f) c)) fs)
  = map fst (filter (fun f => negb (String.eqb (fst f) c)) gs).
Proof.
  revert gs. induction fs as [|[m x] fs IH]; intros [|[m' y] gs] H;
    try discriminate; [reflexivity|].
  simpl in H. injection H as -> H.
  rewrite !filter_cons. simpl. destruct (String.eqb m' c); simpl; [|f_equal]; now apply IH.
Qed.

Lemma names_without_filter {A : Type} (c : string) (fs : list (string * A)) :
  map fst (filter (fun f => negb (String.eqb (fst f) c)) fs)
  = filter (fun n => negb (String.eqb n c)) (map fst fs).
Proof.
  induction fs as [|[m x] fs IH]; [reflexivity|].
  simpl. rewrite !filter_cons. simpl. destruct (String.eqb m c); simpl; [|f_equal]; exact IH.
Qed.

Lemma eqb_not_feature (c f : string) (cols : list string) :
  ~ In c cols -> In f cols -> String.eqb c f = false.
Proof. intros Hc Hf. apply String.eqb_neq. intros ->. exact (Hc Hf). Qed.

Lemma features_without (cols : list string) (c : string) (row : Row) :
  ~ In c cols ->
  features_of cols (filter (fun f => negb (String.eqb (fst f) c)) row) = features_of cols row.
Proof.
  intros Hc. unfold features_of, Row in *. apply map_ext_in. intros f Hf.
  rewrite field_without, (eqb_not_feature _ _ _ Hc Hf). reflexivity.
Qed.

Lemma row_ok_without (p : PipelineModel) (sch : Schema) (c : string) (row : Row) :
  ~ In c (feature_cols p) ->
  row_ok p sch row = true ->
  row_ok p (filter (fun f => negb (String.eqb (fst f) c)) sch)
         (filter (fun f => negb (String.eqb (fst f) c)) row) = true.
Proof.
  intros Hc. unfold row_ok, Row, Schema in *. intros H. rewrite !andb_true_iff in H.
  destruct H as [[Hn Hf] Hl]. apply bool_decide_eq_true in Hn.
  rewrite !andb_true_iff. repeat split.
  - apply bool_decide_eq_true. now apply names_without.
  - rewrite forallb_forall in Hf. apply forallb_forall. intros f Hin.
    rewrite field_without, (eqb_not_feature _ _ _ Hc Hin). now apply Hf.
  - rewrite field_without.
    destruct (String.eqb c (label_col p)); [reflexivity | exact Hl].
Qed.

Lemma schema_ok_without (p : PipelineModel) (sch : Schema) (c : string) :
  ~ In c (feature_cols p) ->
  schema_ok p sch = true ->
  schema_ok p (filter (fun f => negb (String.eqb (fst f) c)) sch) = true.
Proof.
  intros Hc. unfold schema_ok, numeric_column, has_column, Schema in *. intros H.
  rewrite !andb_true_iff in H. destruct H as [[Hf H1] H2].
  rewrite !andb_true_iff. repeat split.
  - rewrite forallb_forall in Hf. apply forallb_forall. intros f Hin.
    rewrite field_without, (eqb_not_feature _ _ _ Hc Hin). now apply Hf.
  - rewrite field_without. destruct (String.eqb c "features"); [reflexivity | exact H1].
  - rewrite field_without. destruct (String.eqb c "prediction"); [reflexivity | exact H2].
Qed.

(** Dropping a column that is no feature of the pipeline keeps a valid
    input valid, keeps its rows in place and keeps their predictions. *)
Lemma drop_column_valid (p : PipelineModel) (df : DataFrame) (c : string) :
  ~ In c (feature_cols p) ->
  valid_input p df = true ->
  valid_input p (drop_column c df) = true
  /\ map (predict p) (rows_of (drop_column c df)) = map (predict p) (rows_of df).
Proof.
  intros Hc Hv. unfold valid_input in Hv. apply andb_true_iff in Hv as [Hs Hr].
  unfold valid_input, rows_of, drop_column. simpl.
  destruct (plan df) as [rows|]; [|discriminate]. simpl.
  split.
  - rewrite (schema_ok_without _ _ _ Hc Hs). simpl.
    rewrite forallb_forall in Hr. apply forallb_forall. intros row Hin.
    apply in_map_iff in Hin as (row' & <- & Hin).
    apply row_ok_without; [exact Hc | now apply Hr].
  - rewrite map_map. apply map_ext. intros row. unfold predict.
    now rewrite features_without.
Qed.


Lemma label_not_feature (label : string) (df : DataFrame) :
  ~ In label (formula_features label df).
Proof.
  unfold formula_features. intros H.
  apply list_elem_of_In, list_elem_of_filter in H as [H _].
  rewrite String.eqb_refl in H. exact H.
Qed.

(** X2.  The sample of the schema cell, [df2.drop("MEDV")], has exactly the
    feature columns of the pipeline trained on [df2] and is a valid input of
    it; [run] on it returns, row by row, the predictions that the evaluation
    cell compared with the targets. *)
Theorem schema_sample_is_scoring_input (df2 : DataFrame) (w : World) :
  trainable "MEDV" df2 = true ->
  score_pipeline w = Some (fitted "MEDV" df2) ->
  columns (drop_column "MEDV" df2) = feature_cols (fitted "MEDV" df2)
  /\ valid_input (fitted "MEDV" df2) (drop_column "MEDV" df2) = true
  /\ run (drop_column "MEDV" df2) w
     = (Return (String.concat ","
                  (map (fun row => str_float (predict (fitted "MEDV" df2) row)) (rows_of df2))),
        w).
Proof.
  intros Ht Hp.
  pose proof (trainable_valid_input _ _ Ht) as Hv.
  destruct (drop_column_valid (fitted "MEDV" df2) df2 "MEDV"
              (label_not_feature "MEDV" df2) Hv) as [Hv' Hpred].
  split; [|split; [exact Hv'|]].
  - unfold columns, drop_column. simpl. apply names_without_filter.
  - rewrite (run_valid _ _ _ Hp Hv').
    rewrite <- (map_map (predict _) str_float), Hpred, map_map. reflexivity.
Qed.

End DropColumn.

(** ** Batches, failures and the order of the cells *)

Section Service.
Context {O : Opaque}.
Import Spark Valid Training.

Lemma concat_app (a b : list string) :
  a <> [] -> b <> [] ->
  String.concat "," (a ++ b) = String.concat "," a +:+ "," +:+ String.concat "," b.
Proof.
  intros Ha Hb. induction a as [|t [|t' a] IH]; [congruence | |].
  - destruct b as [|u b]; [congruence | reflexivity].
  - change (String.concat "," ((t :: t' :: a) ++ b))
      with (t +:+ "," +:+ String.concat "," ((t' :: a) ++ b)).
    rewrite IH by discriminate.
    change (String.concat "," (t :: t' :: a)) with (t +:+ "," +:+ String.concat "," (t' :: a)).
    rewrite !app_assoc. reflexivity.
Qed.

(** X1.  Scoring a table is scoring its two parts: for a valid table split
    into two non-empty runs of rows, the response to the whole is the
    response to the first part, a comma, and the response to the second. *)
Theorem run_batches (sch : Schema) (rows1 rows2 : list Row) (w : World) (p : PipelineModel) :
  score_pipeline w = Some p ->
  valid_input p {| schema := sch; plan := Done (rows1 ++ rows2)%list |} = true ->
  rows1 <> [] ->
  rows2 <> [] ->
  exists r1 r2,
    run {| schema := sch; plan := Done rows1 |} w = (Return r1, w)
    /\ run {| schema := sch; plan := Done rows2 |} w = (Return r2, w)
    /\ run {| schema := sch; plan := Done (rows1 ++ rows2)%list |} w
       = (Return (r1 +:+ "," +:+ r2), w).
Proof.
  intros Hp Hv H1 H2.
  assert (valid_input p {| schema := sch; plan := Done rows1 |} = true
          /\ valid_input p {| schema := sch; plan := Done rows2 |} = true) as [Hv1 Hv2].
  { unfold valid_input in *. simpl in *. apply andb_true_iff in Hv as [Hs Hr].
    rewrite forallb_app in Hr. apply andb_true_iff in Hr as [Hr1 Hr2].
    rewrite Hs, Hr1, Hr2. split; reflexivity. }
  do 2 eexists. split; [exact (run_valid _ _ _ Hp Hv1)|].
  split; [exact (run_valid _ _ _ Hp Hv2)|].
  rewrite (run_valid _ _ _ Hp Hv). unfold rows_of. simpl.
  rewrite map_app, concat_app; [reflexivity | |].
  - destruct rows1; [congruence | discriminate].
  - destruct rows2; [congruence | discriminate].
Qed.




(** X3.  The test cell raises exactly when nothing is persisted under
    [housing.model]: then the error of [init] reaches the caller and the
    state is as before; otherwise the cell returns a string whatever the
    table is. *)
Theorem test_cell_raises_iff_not_persisted (df : DataFrame) (w : World) :
  (files w !! "housing.model" = None ->
   test_cell df w
   = (Raise (mkExc Py4JJavaError "Input path does not exist: housing.model"), w))
  /\ (forall p, files w !! "housing.model" = Some p ->
        exists s, test_cell df w
                  = (Return s, {| files := files w; score_pipeline := Some p |}))
  /\ ((exists e, fst (test_cell df w) = Raise e) <-> files w !! "housing.model" = None).
Proof.
  assert (forall p, files w !! "housing.model" = Some p ->
            exists s, test_cell df w
                      = (Return s, {| files := files w; score_pipeline := Some p |})) as Hsome.
  { intros p Hfile. unfold test_cell, mbind, Py_bind. rewrite init_cases, Hfile.
    apply run_total. }
  assert (files w !! "housing.model" = None ->
          test_cell df w
          = (Raise (mkExc Py4JJavaError "Input path does not exist: housing.model"), w)) as Hnone.
  { intros Hfile. unfold test_cell, mbind, Py_bind. rewrite init_cases, Hfile. reflexivity. }
  split; [exact Hnone|]. split; [exact Hsome|]. split.
  - intros [e He]. destruct (files w !! "housing.model") as [p|] eqn:E; [|reflexivity].
    destruct (Hsome p eq_refl) as [s Hs]. rewrite Hs in He. discriminate.
  - intros Hfile. rewrite (Hnone Hfile). eauto.
Qed.

(** X4.  Persisting a pipeline does not reach a service that is running:
    [run] answers after the save as before it, with the pipeline that [init]
    loaded, until [init] is called again. *)
Theorem save_does_not_reload (df : DataFrame) (w : World) (newer : PipelineModel) :
  fst (run df (snd (save_model newer w))) = fst (run df w)
  /\ score_pipeline (snd (save_model newer w)) = score_pipeline w.
Proof.
  rewrite save_model_cases. simpl. split; [|reflexivity].
  apply run_depends_on_pipeline. reflexivity.
Qed.



(** X9.  Running the cells in order serves the pipeline just trained:
    when the training stage returns a pipeline and a score, the notebook
    persists that pipeline, loads it and returns the score with the
    predictions of that pipeline on a valid input, whatever was persisted or
    loaded before; when the training stage raises, the notebook raises the
    same and persists nothing. *)
Theorem notebook_serves_trained_pipeline (df2 df : DataFrame) (w : World) :
  (forall pipeline score,
     training_stage df2 = Return (pipeline, score) ->
     valid_input pipeline df = true ->
     notebook df2 df w
     = (Return (score,
                String.concat "," (map (fun row => str_float (predict pipeline row)) (rows_of df))),
        {| files := <["housing.model" := pipeline]> (files w);
           score_pipeline := Some pipeline |}))
  /\ (forall e, training_stage df2 = Raise e -> notebook df2 df w = (Raise e, w)).
Proof.
  split.
  - intros pipeline score Hstage Hv.
    unfold notebook, lift, mbind, Py_bind. rewrite Hstage. simpl.
    rewrite save_model_cases.
    unfold test_cell, mbind, Py_bind. rewrite init_cases. simpl.
    rewrite lookup_insert_eq.
    rewrite (run_valid df {| files := <["housing.model" := pipeline]> (files w);
                             score_pipeline := Some pipeline |} pipeline eq_refl Hv).
    reflexivity.
  - intros e Hstage. unfold notebook, lift, mbind, Py_bind. rewrite Hstage. reflexivity.
Qed.

End Service.

(** ** The contract at concrete inputs, with the fake collaborators *)

#[local] Existing Instance Fake.opaque.

Lemma run_renders_predictions_witness :
  run (Spark.drop_column "MEDV" Fake.df2) Fake.ready_world
  = (Return "18.687468518340438,0.0", Fake.ready_world).
Proof.
  exact (proj1 (run_renders_predictions (L := fake_laws)
                  (Spark.drop_column "MEDV" Fake.df2) Fake.ready_world Fake.pipeline
                  eq_refl eq_refl)).
Defined.

Lemma run_catches_scoring_failure_witness :
  exists e, Spark.transform Fake.pipeline (Spark.drop_column "CRIM" TestCell.df) = Raise e
            /\ run (Spark.drop_column "CRIM" TestCell.df) Fake.ready_world
               = (Return (str_exc e), Fake.ready_world).
Proof.
  apply (proj2 (proj2 (run_catches_scoring_failure (Spark.drop_column "CRIM" TestCell.df)
                         Fake.ready_world Fake.pipeline eq_refl)) "CRIM").
  - simpl. auto.
  - reflexivity.
Defined.

Lemma run_without_init_witness :
  run TestCell.df Fake.saved_world = (Return "name 'pipeline' is not defined", Fake.saved_world).
Proof. exact (proj1 (run_without_init TestCell.df Fake.saved_world eq_refl)). Defined.

Lemma run_empty_table_witness :
  run {| Spark.schema := housing_features; Spark.plan := Spark.Done [] |} Fake.ready_world
  = (Return "", Fake.ready_world).
Proof.
  apply (run_empty_table _ _ Fake.pipeline); reflexivity.
Defined.

Lemma save_overwrites_and_init_loads_latest_witness :
  let newer := {| Spark.label_col := "MEDV";
                  Spark.feature_cols := map fst housing_features;
                  Spark.regressor := fun _ => 0%float |} in
  let w1 := snd (save_model newer Fake.saved_world) in
  fst (save_model newer Fake.saved_world) = Return tt
  /\ files w1 !! "housing.model" = Some newer
  /\ init w1 = (Return tt, {| files := files w1; score_pipeline := Some newer |})
  /\ fst (run TestCell.df (snd (init w1)))
     = fst (run TestCell.df {| files := ∅; score_pipeline := Some newer |}).
Proof.
  intros newer.
  apply (save_overwrites_and_init_loads_latest Fake.saved_world Fake.pipeline newer TestCell.df).
  reflexivity.
Defined.

Lemma training_score_is_r2_on_training_table_witness :
  training_stage Fake.df2
  = Return (Training.fitted "MEDV" Fake.df2,
            r2_metric (map (fun row => (Valid.predict (Training.fitted "MEDV" Fake.df2) row,
                                        Training.target "MEDV" row))
                           (Valid.rows_of Fake.df2))).
Proof.
  exact (proj1 (training_score_is_r2_on_training_table Fake.df2 eq_refl)).
Defined.

Lemma run_sample_three_tokens_witness :
  exists x1 x2 x3 : float,
    let tokens := [str_float x1; str_float x2; str_float x3] in
    test_cell TestCell.df Fake.saved_world
    = (Return (String.concat "," tokens),
       {| files := files Fake.saved_world; score_pipeline := Some Fake.pipeline |})
    /\ split_on comma (String.concat "," tokens) = tokens
    /\ length (split_on comma (String.concat "," tokens)) = 3.
Proof.
  apply (run_sample_three_tokens (L := fake_laws) Fake.pipeline Fake.saved_world);
    reflexivity.
Defined.

(** The test cell with the fake collaborators prints what the notebook
    recorded. *)
Example test_cell_recorded_output :
  fst (test_cell TestCell.df Fake.saved_world)
  = Return "18.687468518340438,19.21096852021207,24.48585095195574".
Proof. vm_compute. reflexivity. Qed.

(** After [init] on the persisted pipeline and three requests the loaded
    pipeline is still the persisted one. *)
Lemma run_preserves_state_witness :
  score_pipeline (snd ((_ ← init; serve [TestCell.df; TestCell.df; TestCell.df]) Fake.saved_world))
  = Some Fake.pipeline.
Proof.
  exact (proj2 (proj2 (proj2 (run_preserves_state TestCell.df [TestCell.df; TestCell.df; TestCell.df]
                                Fake.saved_world))) Fake.pipeline eq_refl).
Defined.

(** ** The further properties at concrete inputs *)

Lemma run_batches_witness :
  exists r1 r2,
    run {| Spark.schema := housing_features;
           Spark.plan := Spark.Done (firstn 1 (Valid.rows_of (Spark.drop_column "MEDV" Fake.df2))) |}
        Fake.ready_world = (Return r1, Fake.ready_world)
    /\ run {| Spark.schema := housing_features;
              Spark.plan := Spark.Done (skipn 1 (Valid.rows_of (Spark.drop_column "MEDV" Fake.df2))) |}
           Fake.ready_world = (Return r2, Fake.ready_world)
    /\ run {| Spark.schema := housing_features;
              Spark.plan := Spark.Done
                              (firstn 1 (Valid.rows_of (Spark.drop_column "MEDV" Fake.df2))
                               ++ skipn 1 (Valid.rows_of (Spark.drop_column "MEDV" Fake.df2)))%list |}
           Fake.ready_world = (Return (r1 +:+ "," +:+ r2), Fake.ready_world).
Proof.
  apply (run_batches housing_features _ _ Fake.ready_world Fake.pipeline).
  - reflexivity.
  - vm_compute. reflexivity.
  - vm_compute. discriminate.
  - vm_compute. discriminate.
Defined.

Lemma schema_sample_is_scoring_input_witness :
  Spark.columns (Spark.drop_column "MEDV" Fake.df2)
  = Spark.feature_cols (Training.fitted "MEDV" Fake.df2).
Proof.
  exact (proj1 (schema_sample_is_scoring_input Fake.df2
                  {| files := ∅; score_pipeline := Some (Training.fitted "MEDV" Fake.df2) |}
                  eq_refl eq_refl)).
Defined.

Lemma test_cell_raises_iff_not_persisted_witness :
  test_cell TestCell.df Fake.empty_world
  = (Raise (mkExc Py4JJavaError "Input path does not exist: housing.model"), Fake.empty_world).
Proof.
  exact (proj1 (test_cell_raises_iff_not_persisted TestCell.df Fake.empty_world) eq_refl).
Defined.




Lemma notebook_serves_trained_pipeline_witness :
  fst (notebook Fake.df2 (Spark.drop_column "MEDV" Fake.df2) Fake.empty_world)
  = Return (1%float, "18.687468518340438,0.0").
Proof.
  rewrite (proj1 (notebook_serves_trained_pipeline Fake.df2 (Spark.drop_column "MEDV" Fake.df2)
                    Fake.empty_world) Fake.pipeline 1%float).
  - reflexivity.
  - vm_compute. reflexivity.
  - vm_compute. reflexivity.
Defined.
